(** * Verification of the system catalog service (src/main.py)

    A shallow embedding of the FastAPI/SQLAlchemy handlers of [main.py]:
    the [sistemas] table and its session, the request schema with
    pydantic's "explicitly set" information, Python's exception flow
    through [try]/[except] chains, pathlib's path algebra and the part of
    the POSIX filesystem the handlers touch. *)

From Stdlib Require Import ZArith String Ascii List Bool Lia.
From Stdlib Require Strings.Byte.
From stdpp Require Import base gmap strings list.
Import ListNotations.
Open Scope string_scope.

(* ------------------------------------------------------------------ *)
(** ** Data model *)

(** [class SistemaDB(Base)]: one row of table [sistemas]. *)
Record SistemaDB := mkSistemaDB {
  id : Z;
  nome : string;
  version : Z;
  arquivo : option string
}.

(** A field of a pydantic model with a default: either left unset by the
    request body, or explicitly given (possibly as [null]). *)
Inductive field (A : Type) :=
| Unset
| SetTo (v : option A).
Arguments Unset {A}.
Arguments SetTo {A} v.

(** The attribute value pydantic exposes for a field (its default [None]
    when unset). *)
Definition field_value {A} (f : field A) : option A :=
  match f with Unset => None | SetTo v => v end.

(** [class SistemaCreate(SistemaBase)]: [nome] is required, the other
    fields are [Optional[...] = None]. *)
Record SistemaCreate := mkSistemaCreate {
  req_id : field Z;
  req_nome : string;
  req_version : field Z;
  req_arquivo : field string
}.

(** The table as a session sees it: its rows, in storage order, and the
    next value of the serial sequence of [id]. *)
Record Store := mkStore {
  rows : list SistemaDB;
  next_id : Z
}.

(* ------------------------------------------------------------------ *)
(** ** Filesystem *)

Inductive entry :=
| Dir
| File (data : list Byte.byte).

Global Instance byte_eq_decision : EqDecision Byte.byte := Stdlib.Strings.Byte.byte_eq_dec.
Global Instance entry_eq_decision : EqDecision entry.
Proof. solve_decision. Defined.

(** Absolute paths are lists of components from the root [/]. *)
Abbreviation fs_t := (gmap (list string) entry).

(** [stat]: the root always exists as a directory. *)
Definition stat (fs : fs_t) (p : list string) : option entry :=
  match p with [] => Some Dir | _ => fs !! p end.

Definition is_dir_entry (e : option entry) : bool :=
  match e with Some Dir => true | _ => false end.

(** The entry a path names, as [stat] finds it for [os.path.exists] and
    [is_dir]: components are walked from the root; [..] steps to the
    parent and needs the current directory to exist (symbolic links are
    not modelled). Other components are not checked on the way: in a
    directory tree an existing entry has directories above it. [None] is a
    failed walk. *)
Fixpoint walk (fs : fs_t) (acc : list string) (segs : list string)
  : option (list string) :=
  match segs with
  | [] => Some acc
  | s :: rest =>
      if String.eqb s ".." then
        if is_dir_entry (stat fs acc) then walk fs (removelast acc) rest
        else None
      else walk fs (acc ++ [s])%list rest
  end.

(** OS errors raised by the calls the handlers make. *)
Inductive oserr := ENOENT | EEXIST | ENOTDIR | EISDIR.

(** The lookup the kernel makes for the directory part of a path given to
    [mkdir] or [open]: starting from the directory [acc] (the root for an
    absolute path, the working directory for a relative one), every
    component must name an existing directory: a missing one is ENOENT, a
    regular file ENOTDIR; [..] steps to the parent. *)
Fixpoint resolve_dir (fs : fs_t) (acc : list string) (segs : list string)
  : oserr + list string :=
  match segs with
  | [] => inr acc
  | s :: rest =>
      if String.eqb s ".." then resolve_dir fs (removelast acc) rest
      else match stat fs (acc ++ [s])%list with
           | Some Dir => resolve_dir fs (acc ++ [s])%list rest
           | Some (File _) => inl ENOTDIR
           | None => inl ENOENT
           end
  end.

(** [os.mkdir(path)] on the components [segs] taken from [start]; a path
    with no component, or whose last one is [..], names an existing
    directory. *)
Definition os_mkdir (fs : fs_t) (start segs : list string) : oserr + fs_t :=
  if negb (is_dir_entry (stat fs start)) then inl ENOENT else
  match segs with
  | [] => inl EEXIST
  | _ =>
      match resolve_dir fs start (removelast segs) with
      | inl e => inl e
      | inr par =>
          let l := List.last segs "" in
          if String.eqb l ".." then inl EEXIST
          else match stat fs (par ++ [l])%list with
               | Some _ => inl EEXIST
               | None => inr (<[(par ++ [l])%list := Dir]> fs)
               end
      end
  end.

(** [open(path, "wb")] followed by [write(data)]: creates or truncates a
    regular file; a directory is EISDIR. *)
Definition os_write_file (fs : fs_t) (start segs : list string) (data : list Byte.byte)
  : oserr + fs_t :=
  if negb (is_dir_entry (stat fs start)) then inl ENOENT else
  match segs with
  | [] => inl EISDIR
  | _ =>
      match resolve_dir fs start (removelast segs) with
      | inl e => inl e
      | inr par =>
          let l := List.last segs "" in
          if String.eqb l ".." then inl EISDIR
          else match stat fs (par ++ [l])%list with
               | Some Dir => inl EISDIR
               | _ => inr (<[(par ++ [l])%list := File data]> fs)
               end
      end
  end.

(** [os.path.exists]: the path resolves and names an entry. *)
Definition os_exists (fs : fs_t) (segs : list string) : bool :=
  match walk fs [] segs with
  | Some q => bool_decide (is_Some (stat fs q))
  | None => false
  end.

Definition os_is_dir (fs : fs_t) (segs : list string) : bool :=
  match walk fs [] segs with
  | Some q => is_dir_entry (stat fs q)
  | None => false
  end.

(* ------------------------------------------------------------------ *)
(** ** pathlib *)

(** Splitting a string at every ['/']. *)
Fixpoint split_slash (s : string) : list string :=
  match s with
  | EmptyString => [""]
  | String c s' =>
      if Ascii.eqb c "/" then "" :: split_slash s'
      else match split_slash s' with
           | seg :: rest => String c seg :: rest
           | [] => [String c ""]
           end
  end.

(** A [PurePosixPath]: absolute or not, and its components. Parsing drops
    empty and ["."] components, as pathlib does (the special meaning of a
    leading ["//"] is not modelled). *)
Record ppath := mkPath {
  pabs : bool;
  psegs : list string
}.

Definition parse_path (s : string) : ppath :=
  {| pabs := match s with String c _ => Ascii.eqb c "/" | EmptyString => false end;
     psegs := List.filter (fun seg => negb (String.eqb seg "" || String.eqb seg "."))
                (split_slash s) |}.

(** [p / s]: an absolute right operand replaces the left one. *)
Definition pjoin (p : ppath) (s : string) : ppath :=
  let q := parse_path s in
  if pabs q then q else {| pabs := pabs p; psegs := (psegs p ++ psegs q)%list |}.

(** [Path.parent]. *)
Definition pparent (p : ppath) : ppath :=
  {| pabs := pabs p; psegs := removelast (psegs p) |}.

(** The component list the kernel receives, relative paths being taken
    from the working directory [cwd]. *)
Definition os_segs (cwd : list string) (p : ppath) : list string :=
  if pabs p then psegs p else (cwd ++ psegs p)%list.

(** The directory the kernel starts a lookup from. *)
Definition os_start (cwd : list string) (p : ppath) : list string :=
  if pabs p then [] else cwd.

(** [str(p)] for a [PurePosixPath]: the components joined by ["/"], after
    a ["/"] when absolute; an empty relative path is ["."]. *)
Definition str_path (p : ppath) : string :=
  if pabs p then "/" ++ String.concat "/" (psegs p)
  else match psegs p with
       | [] => "."
       | segs => String.concat "/" segs
       end.

(** [repr(s)] for a [str]: single quotes, or double quotes when [s] holds a
    single quote and no double quote; backslash and the chosen quote are
    escaped, tab, newline and carriage return written [\t], [\n], [\r],
    other control characters as [\xhh]. Bytes above 127 (the UTF-8 of
    non-ASCII characters) are kept, as Python keeps printable ones. *)
Fixpoint has_char (c : ascii) (s : string) : bool :=
  match s with
  | EmptyString => false
  | String c' s' => Ascii.eqb c c' || has_char c s'
  end.

Definition hex_digit (n : N) : ascii :=
  if (n <? 10)%N then ascii_of_N (48 + n) else ascii_of_N (87 + n).

Fixpoint repr_body (q : ascii) (s : string) : string :=
  match s with
  | EmptyString => EmptyString
  | String c s' =>
      let n := N_of_ascii c in
      let esc :=
        if Ascii.eqb c q || Ascii.eqb c "\" then String "\" (String c EmptyString)
        else if (n =? 9)%N then "\t"
        else if (n =? 10)%N then "\n"
        else if (n =? 13)%N then "\r"
        else if (n <? 32)%N || (n =? 127)%N then
          String "\" (String "x" (String (hex_digit (n / 16)%N)
                                    (String (hex_digit (n mod 16)%N) EmptyString)))
        else String c EmptyString in
      esc ++ repr_body q s'
  end.

Definition py_repr (s : string) : string :=
  let q := if has_char "'" s && negb (has_char "034" s) then "034"%char else "'"%char in
  String q (repr_body q s ++ String q EmptyString).

(** [str(n)] for a Python [int]. *)
Definition digit_char (d : N) : ascii := ascii_of_N (48 + d).

Fixpoint str_N_fuel (fuel : nat) (n : N) (acc : string) : string :=
  match fuel with
  | O => acc
  | S f =>
      let acc' := String (digit_char (N.modulo n 10)) acc in
      let q := N.div n 10 in
      if N.eqb q 0 then acc' else str_N_fuel f q acc'
  end.

Definition str_N (n : N) : string :=
  str_N_fuel (S (match n with N0 => O | Npos p => Pos.size_nat p end)) n "".

Definition str_Z (z : Z) : string :=
  match z with
  | Z.neg p => String "-" (str_N (Npos p))
  | _ => str_N (Z.to_N z)
  end.

(** [Path.mkdir(parents=True, exist_ok=...)] as pathlib implements it:
    try [os.mkdir]; on FileNotFoundError create the parent (with
    [exist_ok=True]) and retry without [parents]; on any other OSError
    succeed only when [exist_ok] holds and the path is a directory. The
    path is given by its absoluteness and its components in reverse. An
    error is raised with the [str] of the path whose [os.mkdir] failed. *)
Definition mkdir_noparents (exist_ok : bool) (cwd : list string) (self : ppath) (fs : fs_t)
  : (oserr * string) + fs_t :=
  match os_mkdir fs (os_start cwd self) (psegs self) with
  | inr fs' => inr fs'
  | inl ENOENT => inl (ENOENT, str_path self)
  | inl e => if exist_ok && os_is_dir fs (os_segs cwd self) then inr fs
             else inl (e, str_path self)
  end.

Fixpoint mkdir_parents_rev (cwd : list string) (abs : bool) (rsegs : list string)
    (exist_ok : bool) (fs : fs_t) : (oserr * string) + fs_t :=
  let self := {| pabs := abs; psegs := rev rsegs |} in
  match os_mkdir fs (os_start cwd self) (psegs self) with
  | inr fs' => inr fs'
  | inl ENOENT =>
      match rsegs with
      | [] => inl (ENOENT, str_path self)
      | _ :: rparent =>
          match mkdir_parents_rev cwd abs rparent true fs with
          | inl e => inl e
          | inr fs1 => mkdir_noparents exist_ok cwd self fs1
          end
      end
  | inl e => if exist_ok && os_is_dir fs (os_segs cwd self) then inr fs
             else inl (e, str_path self)
  end.

(* ------------------------------------------------------------------ *)
(** ** Exceptions, responses and the handler monad *)

Inductive exn :=
| HTTPException (status_code : Z) (detail : string)
| OSError (e : oserr) (filename : string)
| DBError (msg : string).

(** [str(e)]; Starlette renders an HTTPException as ["<code>: <detail>"],
    an OSError carrying a file name as ["[Errno <n>] <text>: <repr(name)>"]. *)
Definition str_oserr (e : oserr) : string :=
  match e with
  | ENOENT => "[Errno 2] No such file or directory"
  | EEXIST => "[Errno 17] File exists"
  | ENOTDIR => "[Errno 20] Not a directory"
  | EISDIR => "[Errno 21] Is a directory"
  end.

Definition str_exn (e : exn) : string :=
  match e with
  | HTTPException c d => str_Z c ++ ": " ++ d
  | OSError e f => str_oserr e ++ ": " ++ py_repr f
  | DBError m => m
  end.

(** [isinstance(e, HTTPException)] and [isinstance(e, Exception)]: every
    exception here, HTTPException included, is an [Exception]. *)
Definition is_HTTPException (e : exn) : bool :=
  match e with HTTPException _ _ => true | _ => false end.
Definition is_Exception (e : exn) : bool := true.

Inductive response :=
| RList (l : list SistemaDB)
| RSistema (s : SistemaDB)
| RMessage (status_code : Z) (mensagem : string)
| RFile (path : ppath) (media_type : string) (filename : string).

(** The accesses a handler makes, in order. *)
Inductive access := DbQuery | DbWrite | FsOp.

(** The process state: the committed table, the open session's view of
    it, the filesystem, the working directory, the directory of
    [main.py] ([Path(__file__).resolve().parent]) and the access log. *)
Record World := mkWorld {
  store : Store;
  tx : Store;
  fs : fs_t;
  cwd : list string;
  moddir : list string;
  accesses : list access
}.

Definition set_store (s : Store) (w : World) : World :=
  mkWorld s (tx w) (fs w) (cwd w) (moddir w) (accesses w).
Definition set_tx (s : Store) (w : World) : World :=
  mkWorld (store w) s (fs w) (cwd w) (moddir w) (accesses w).
Definition set_fs (f : fs_t) (w : World) : World :=
  mkWorld (store w) (tx w) f (cwd w) (moddir w) (accesses w).
Definition log (a : access) (w : World) : World :=
  mkWorld (store w) (tx w) (fs w) (cwd w) (moddir w) (accesses w ++ [a])%list.

Inductive res (A : Type) :=
| Ret (a : A)
| Exc (e : exn).
Arguments Ret {A} a.
Arguments Exc {A} e.

Definition M (A : Type) : Type := World -> res A * World.

Global Instance M_ret : MRet M := fun A a w => (Ret a, w).
Global Instance M_bind : MBind M := fun A B f m w =>
  match m w with
  | (Ret a, w') => f a w'
  | (Exc e, w') => (Exc e, w')
  end.

Definition raise {A} (e : exn) : M A := fun w => (Exc e, w).

(** [except C1: ... except C2: ...]: the first clause whose class the
    exception belongs to handles it; with none, it propagates. *)
Fixpoint except_chain {A} (clauses : list ((exn -> bool) * (exn -> M A)))
    (e : exn) : M A :=
  match clauses with
  | [] => raise e
  | (cls, h) :: rest => if cls e then h e else except_chain rest e
  end.

Definition try_except {A} (body : M A) (clauses : list ((exn -> bool) * (exn -> M A)))
  : M A :=
  fun w => match body w with
           | (Exc e, w') => except_chain clauses e w'
           | r => r
           end.

(** [except HTTPException: raise] *)
Definition reraise {A} (e : exn) : M A := raise e.

(** [except Exception as e: raise HTTPException(500, f"<msg>{str(e)}")] *)
Definition internal_error {A} (msg : string) (e : exn) : M A :=
  raise (HTTPException 500 (msg ++ str_exn e)).

(* ------------------------------------------------------------------ *)
(** ** Session operations ([with Database() as db]) *)

(** [SessionLocal()] starts from the committed table; [db.close()] in the
    [finally] drops whatever was not committed. *)
Definition with_database {A} (body : M A) : M A :=
  fun w => let '(r, w') := body (set_tx (store w) w) in (r, set_tx (store w') w').

Definition id_matches (i : option Z) (r : SistemaDB) : bool :=
  match i with Some k => Z.eqb (id r) k | None => false end.

(** [db.query(SistemaDB).filter(SistemaDB.id == i).first()]; comparing
    with [None] ([id IS NULL]) matches no row. *)
Definition db_query_first_by_id (i : option Z) : M (option SistemaDB) :=
  fun w => (Ret (List.find (id_matches i) (rows (tx w))), log DbQuery w).

(** [db.query(SistemaDB).all()] *)
Definition db_query_all : M (list SistemaDB) :=
  fun w => (Ret (rows (tx w)), log DbQuery w).

(** [db.query(SistemaDB).filter(SistemaDB.nome == s).all()] *)
Definition db_query_filter_nome (s : string) : M (list SistemaDB) :=
  fun w => (Ret (List.filter (fun r => String.eqb (nome r) s) (rows (tx w))), log DbQuery w).

(** The dictionary [sistema_info.model_dump(exclude_unset=True,
    exclude={'id'})]: a key per explicitly set field; [nome] is required,
    so it is always there. *)
Record patch := mkPatch {
  set_nome : option string;
  set_version : option (option Z);
  set_arquivo : option (option string)
}.

Definition present {A} (f : field A) : option (option A) :=
  match f with Unset => None | SetTo v => Some v end.

Definition model_dump_patch (s : SistemaCreate) : patch :=
  mkPatch (Some (req_nome s)) (present (req_version s)) (present (req_arquivo s)).

(** [UPDATE sistemas SET ... WHERE id = i] on one row. *)
Definition apply_patch (p : patch) (r : SistemaDB) : SistemaDB :=
  mkSistemaDB (id r)
    (match set_nome p with Some n => n | None => nome r end)
    (match set_version p with Some (Some v) => v | _ => version r end)
    (match set_arquivo p with Some a => a | None => arquivo r end).

(** [version] is a PostgreSQL [integer NOT NULL] column. *)
Definition in_int32 (v : Z) : bool :=
  (-2147483648 <=? v)%Z && (v <=? 2147483647)%Z.

Definition patch_error (p : patch) : option exn :=
  match set_version p with
  | Some None => Some (DBError "null value in column version violates not-null constraint")
  | Some (Some v) => if in_int32 v then None else Some (DBError "integer out of range")
  | None => None
  end.

(** A [version] literal outside [integer]'s range is refused when
    PostgreSQL plans the statement (the assignment cast is folded), before
    any row is looked at. *)
Definition refused_at_planning (p : patch) : bool :=
  match set_version p with
  | Some (Some v) => negb (in_int32 v)
  | _ => false
  end.

(** [db.query(SistemaDB).filter(SistemaDB.id == i).update(values)]:
    returns the number of rows matched. An out-of-range literal fails the
    statement in any case; [null] fails it as soon as a row is written.
    Updated rows keep their place in the list, which stands for the
    table's contents (SQL fixes no order for a [SELECT] without
    [ORDER BY]). *)
Definition db_update_by_id (i : option Z) (p : patch) : M Z :=
  fun w =>
    let t := tx w in
    let n := length (List.filter (id_matches i) (rows t)) in
    match patch_error p with
    | Some e => if Nat.eqb n 0 && negb (refused_at_planning p) then (Ret 0%Z, log DbWrite w)
                else (Exc e, log DbWrite w)
    | None =>
        let rows' := map (fun r => if id_matches i r then apply_patch p r else r) (rows t) in
        (Ret (Z.of_nat n), log DbWrite (set_tx (mkStore rows' (next_id t)) w))
    end.

(** [db.add(SistemaDB(nome=..., version=..., arquivo=...))], flushed with
    the serial's next value as [id]. *)
Definition db_add (n : string) (v : Z) (a : option string) : M SistemaDB :=
  fun w =>
    let t := tx w in
    let r := mkSistemaDB (next_id t) n v a in
    (Ret r, log DbWrite (set_tx (mkStore (rows t ++ [r])%list (next_id t + 1)%Z) w)).

(** [db.commit()] *)
Definition db_commit : M unit := fun w => (Ret tt, set_store (tx w) w).

(** [db.refresh(obj)]: reload the row with [obj]'s id. *)
Definition db_refresh (r : SistemaDB) : M SistemaDB :=
  fun w => (Ret (default r (List.find (id_matches (Some (id r))) (rows (tx w)))),
            log DbQuery w).

(* ------------------------------------------------------------------ *)
(** ** Filesystem operations in the monad *)

Definition path_mkdir (p : ppath) (parents exist_ok : bool) : M unit :=
  fun w =>
    let r := if parents then mkdir_parents_rev (cwd w) (pabs p) (rev (psegs p)) exist_ok (fs w)
             else mkdir_noparents exist_ok (cwd w) p (fs w) in
    match r with
    | inl (e, f) => (Exc (OSError e f), log FsOp w)
    | inr f => (Ret tt, log FsOp (set_fs f w))
    end.

(** [Path(p).exists()] *)
Definition path_exists (p : ppath) : M bool :=
  fun w => (Ret (os_exists (fs w) (os_segs (cwd w) p)), log FsOp w).

(** [with open(p, "wb") as arq: arq.write(data)] *)
Definition write_file (p : ppath) (data : list Byte.byte) : M unit :=
  fun w =>
    match os_write_file (fs w) (os_start (cwd w) p) (psegs p) data with
    | inl e => (Exc (OSError e (str_path p)), log FsOp w)
    | inr f => (Ret tt, log FsOp (set_fs f w))
    end.

(** [Path(__file__).resolve().parent] *)
Definition module_dir : M ppath := fun w => (Ret {| pabs := true; psegs := moddir w |}, w).

(* ------------------------------------------------------------------ *)
(** ** Handlers *)

(** Python truthiness of a [str]. *)
Definition str_truthy (s : string) : bool := negb (String.eqb s "").

(** [f"{x}"] for an [Optional[int]]. *)
Definition str_opt_Z (o : option Z) : string :=
  match o with Some z => str_Z z | None => "None" end.

Definition exe_media_type : string := "application/x-msdownload".

(** GET /sistemas/ *)
Definition listar_sistemas (sistema_nome : option string) : M response :=
  try_except
    (with_database
       (match sistema_nome with
        | Some s =>
            if str_truthy s then
              sistemas ← db_query_filter_nome s; mret (RList sistemas)
            else
              sistemas ← db_query_all; mret (RList sistemas)
        | None =>
            sistemas ← db_query_all; mret (RList sistemas)
        end))
    [(is_Exception, internal_error "Erro ao listar sistemas: ")].

(** The fallback path of the download handler:
    [Path(__file__).resolve().parent / Path('static') / 'sistemas' / nome
     / str(version) / f'{nome}.exe']. *)
Definition fallback_path (moddir_p : ppath) (s : SistemaDB) : ppath :=
  pjoin (pjoin (pjoin (pjoin (pjoin moddir_p "static") "sistemas") (nome s))
          (str_Z (version s))) (nome s ++ ".exe").

(** GET /sistemas/{id_sistema}/download *)
Definition download_arquivo_sistema (id_sistema : Z) : M response :=
  try_except
    (with_database
       (sistema ← db_query_first_by_id (Some id_sistema);
        match sistema with
        | Some s =>
            match arquivo s with
            | Some a =>
                if str_truthy a then
                  existe ← path_exists (parse_path a);
                  if (existe : bool) then mret (RFile (parse_path a) exe_media_type (nome s ++ ".exe"))
                  else
                    md ← module_dir;
                    let arquivo_path := fallback_path md s in
                    mret (RFile arquivo_path exe_media_type (nome s ++ ".exe"))
                else
                  raise (HTTPException 404 ("Sistema com ID " ++ str_Z id_sistema ++
                                            " não encontrado ou sem arquivo"))
            | None =>
                raise (HTTPException 404 ("Sistema com ID " ++ str_Z id_sistema ++
                                          " não encontrado ou sem arquivo"))
            end
        | None =>
            raise (HTTPException 404 ("Sistema com ID " ++ str_Z id_sistema ++
                                      " não encontrado ou sem arquivo"))
        end))
    [(is_HTTPException, reraise);
     (is_Exception, internal_error "Erro ao fazer download do arquivo: ")].

(** GET /sistemas/{sistema_id}: the [except Exception] clause comes
    first, so it also receives the HTTPException raised in the body. *)
Definition listar_sistema_por_id (sistema_id : Z) : M response :=
  try_except
    (with_database
       (sistema ← db_query_first_by_id (Some sistema_id);
        match sistema with
        | None => raise (HTTPException 404 ("Sistema com ID " ++ str_Z sistema_id ++
                                            " não encontrado"))
        | Some s => mret (RSistema s)
        end))
    [(is_Exception, internal_error "Erro ao listar sistema: ");
     (is_HTTPException, reraise)].

(** POST /sistema/ *)
Definition criar_sistema (sistema : SistemaCreate) : M response :=
  try_except
    (with_database
       (novo_sistema ← db_add (req_nome sistema) 1 None;
        db_commit;;
        novo_sistema ← db_refresh novo_sistema;
        mret (RSistema novo_sistema)))
    [(is_Exception, internal_error "Erro ao criar sistema: ")].

(** PATCH /sistema/ *)
Definition atualizar_cadastro_sistema (sistema_info : SistemaCreate) : M response :=
  try_except
    (with_database
       (db_sistema ← db_update_by_id (field_value (req_id sistema_info))
                                     (model_dump_patch sistema_info);
        if Z.eqb db_sistema 0 then
          raise (HTTPException 404 ("Sistema com ID " ++
                                    str_opt_Z (field_value (req_id sistema_info)) ++
                                    " não encontrado"))
        else
          db_commit;;
          mret (RMessage 200 "Sucesso!")))
    [(is_Exception, internal_error "Erro ao atualizar sistema: ");
     (is_HTTPException, reraise)].

(** The directory the upload handler writes into:
    [Path(f"static/sistemas/{sistema.nome}/{sistema.version}")]. *)
Definition upload_dir (s : SistemaDB) : ppath :=
  parse_path ("static/sistemas/" ++ nome s ++ "/" ++ str_Z (version s)).

(** POST /sistema/{sistema_id}/arquivo, for an upload with declared
    content type [content_type], client file name [filename] and
    content [data]. *)
Definition adicionar_arquivo_sistema (sistema_id : Z) (content_type : option string)
    (filename : string) (data : list Byte.byte) : M response :=
  try_except
    (if negb (bool_decide (content_type = Some exe_media_type)) then
       raise (HTTPException 400 "O arquivo deve ser um executável (.exe)")
     else
       with_database
         (sistema ← db_query_first_by_id (Some sistema_id);
          match sistema with
          | None => raise (HTTPException 404 ("Sistema com ID " ++ str_Z sistema_id ++
                                              " não encontrado"))
          | Some s =>
              let base_dir := upload_dir s in
              path_mkdir base_dir true true;;
              write_file (pjoin base_dir filename) data;;
              mret (RMessage 201 "Sucesso!")
          end))
    [(is_HTTPException, reraise);
     (is_Exception, internal_error "Erro ao adicionar arquivo ao sistema: ")].

(* ------------------------------------------------------------------ *)
(** ** Predicates used in the statements *)

(** Every row has [version >= 1]. *)
Definition version_inv (s : Store) : Prop :=
  Forall (fun r => (1 <= version r)%Z) (rows s).

(** The serial sequence is ahead of every stored id, as it is for rows
    inserted through it. *)
Definition ids_below_next (s : Store) : Prop :=
  Forall (fun r => (id r < next_id s)%Z) (rows s).

(** A concrete world: an empty table, [/app] as both working directory
    and module directory. *)
Definition world0 : World :=
  mkWorld (mkStore [] 1) (mkStore [] 1) (<[["app"] := Dir]> ∅) ["app"] ["app"] [].

(** The same world with one row [Tool], version 1, file path [arq]. *)
Definition world_tool (arq : option string) : World :=
  set_store (mkStore [mkSistemaDB 1 "Tool" 1 arq] 2) world0.

(* ------------------------------------------------------------------ *)
(** ** Generic facts about the monad and the session *)

(** Unfold the monad's operations and compute. *)
Ltac run_M :=
  unfold mbind, M_bind, mret, M_ret, raise in *; cbn.

Lemma bind_ret {A B} (a : A) (f : A -> M B) (w : World) :
  (mret a ≫= f) w = f a w.
Proof. reflexivity. Qed.

Lemma with_database_store {A} (body : M A) (w : World) :
  store (snd (with_database body w)) = store (snd (body (set_tx (store w) w))).
Proof. unfold with_database. by destruct (body _). Qed.

Lemma find_past_smaller_ids (l : list SistemaDB) (n : Z) (x : SistemaDB) :
  Forall (fun r => (id r < n)%Z) l ->
  List.find (id_matches (Some n)) (l ++ [x])%list = List.find (id_matches (Some n)) [x].
Proof.
  induction 1 as [|r l Hr _ IH]; [reflexivity |].
  cbn [app List.find]. unfold id_matches at 1.
  destruct (Z.eqb_spec (id r) n); [lia | exact IH].
Qed.

(* ------------------------------------------------------------------ *)
(** ** C1: a missing id *)

(** C1 (code defect): for an id that matches no row, get-by-id and update
    raise their 404 inside a [try] whose first clause is
    [except Exception], which turns it into a 500; download, whose first
    clause is [except HTTPException: raise], answers 404. *)
Lemma missing_id_get_update_500 :
  fst (listar_sistema_por_id 2 (world_tool None)) =
    Exc (HTTPException 500 "Erro ao listar sistema: 404: Sistema com ID 2 não encontrado") /\
  fst (atualizar_cadastro_sistema (mkSistemaCreate (SetTo (Some 2%Z)) "X" Unset Unset)
         (world_tool None)) =
    Exc (HTTPException 500 "Erro ao atualizar sistema: 404: Sistema com ID 2 não encontrado") /\
  fst (download_arquivo_sistema 2 (world_tool None)) =
    Exc (HTTPException 404 "Sistema com ID 2 não encontrado ou sem arquivo").
Proof. split; [|split]; vm_compute; reflexivity. Qed.

(* ------------------------------------------------------------------ *)
(** ** C4: content type check *)

(** C4: an upload whose declared content type is not
    [application/x-msdownload] is answered with 400 and the world is left
    exactly as it was: no store access, no filesystem operation, no
    change to the table or the files. *)
Theorem upload_rejects_non_exe (sistema_id : Z) (ct : option string) (filename : string)
    (data : list Byte.byte) (w : World) :
  ct <> Some exe_media_type ->
  adicionar_arquivo_sistema sistema_id ct filename data w =
    (Exc (HTTPException 400 "O arquivo deve ser um executável (.exe)"), w).
Proof.
  intros Hct. unfold adicionar_arquivo_sistema, try_except.
  rewrite (bool_decide_eq_false_2 _ Hct). reflexivity.
Qed.

Lemma upload_rejects_non_exe_witness :
  Some "text/plain" <> Some exe_media_type /\
  adicionar_arquivo_sistema 1 (Some "text/plain") "Tool.exe" [Byte.x4d; Byte.x5a]
    (world_tool None) =
    (Exc (HTTPException 400 "O arquivo deve ser um executável (.exe)"), world_tool None).
Proof. split; [discriminate | apply upload_rejects_non_exe; discriminate]. Defined.

(* ------------------------------------------------------------------ *)
(** ** C5: creation *)



(* ------------------------------------------------------------------ *)
(** ** C8, C10: listing *)



(** C10: the empty filter is treated as no filter: every row is listed. *)
Theorem listar_sistemas_empty_filter (w : World) :
  fst (listar_sistemas (Some "") w) = fst (listar_sistemas None w) /\
  fst (listar_sistemas (Some "") w) = Ret (RList (rows (store w))).
Proof. split; reflexivity. Qed.

(* ------------------------------------------------------------------ *)
(** ** Update and the version invariant *)

(** The rows after [UPDATE ... WHERE id = i]. *)
Definition updated_rows (i : option Z) (p : patch) (l : list SistemaDB) : list SistemaDB :=
  map (fun r => if id_matches i r then apply_patch p r else r) l.

(** The two ways the update handler ends. *)
Lemma atualizar_cases (info : SistemaCreate) (w : World) :
  let i := field_value (req_id info) in
  let p := model_dump_patch info in
  let n := length (List.filter (id_matches i) (rows (store w))) in
  (n <> 0%nat /\ patch_error p = None /\
   fst (atualizar_cadastro_sistema info w) = Ret (RMessage 200 "Sucesso!") /\
   store (snd (atualizar_cadastro_sistema info w)) =
     mkStore (updated_rows i p (rows (store w))) (next_id (store w)))
  \/
  ((exists d, fst (atualizar_cadastro_sistema info w) = Exc (HTTPException 500 d)) /\
   store (snd (atualizar_cadastro_sistema info w)) = store w /\
   (patch_error p <> None \/ n = 0%nat)).
Proof.
  intros i p n.
  unfold atualizar_cadastro_sistema, try_except, with_database, db_update_by_id,
    db_commit, internal_error.
  run_M. fold i p n.
  destruct (patch_error p) as [e|] eqn:Hp.
  - right. destruct (Nat.eqb n 0 && negb (refused_at_planning p)); cbn;
      (split; [eexists; reflexivity | split; [reflexivity | left; discriminate]]).
  - destruct (Z.eqb_spec (Z.of_nat n) 0) as [Hn|Hn]; cbn.
    + right. split; [eexists; reflexivity | split; [reflexivity | right; lia]].
    + left. split; [lia | split; [reflexivity | split; reflexivity]].
Qed.







(** The handlers that never commit leave the table as it was. *)
Lemma listar_sistemas_store (n : option string) (w : World) :
  store (snd (listar_sistemas n w)) = store w.
Proof.
  unfold listar_sistemas, try_except, with_database, internal_error. run_M.
  repeat (case_match; simplify_eq/=; run_M); reflexivity.
Qed.

Lemma listar_sistema_por_id_store (i : Z) (w : World) :
  store (snd (listar_sistema_por_id i w)) = store w.
Proof.
  unfold listar_sistema_por_id, try_except, with_database, internal_error. run_M.
  repeat (case_match; simplify_eq/=; run_M); reflexivity.
Qed.

Lemma download_store (i : Z) (w : World) :
  store (snd (download_arquivo_sistema i w)) = store w.
Proof.
  unfold download_arquivo_sistema, try_except, with_database, internal_error, reraise,
    path_exists, module_dir. run_M.
  repeat (case_match; simplify_eq/=; run_M); reflexivity.
Qed.

Lemma upload_store (i : Z) (ct : option string) (f : string) (d : list Byte.byte) (w : World) :
  store (snd (adicionar_arquivo_sistema i ct f d w)) = store w.
Proof.
  unfold adicionar_arquivo_sistema, try_except, with_database, internal_error, reraise,
    path_mkdir, write_file. run_M.
  repeat (case_match; simplify_eq/=; run_M); reflexivity.
Qed.

Lemma criar_sistema_store (sistema : SistemaCreate) (w : World) :
  store (snd (criar_sistema sistema w)) =
    mkStore (rows (store w) ++ [mkSistemaDB (next_id (store w)) (req_nome sistema) 1 None])%list
      (next_id (store w) + 1)%Z.
Proof.
  unfold criar_sistema, try_except, with_database, db_add, db_commit, db_refresh. run_M.
  reflexivity.
Qed.

(** C7 fails as stated: from the empty table, creating [Tool] and then
    patching it with [version = 0] leaves a row with version 0. *)
Definition req_create_tool : SistemaCreate := mkSistemaCreate Unset "Tool" Unset Unset.
Definition req_version_0 : SistemaCreate := mkSistemaCreate (SetTo (Some 1%Z)) "Tool" (SetTo (Some 0%Z)) Unset.

Lemma version_zero_reachable :
  version_inv (store world0) /\
  fst (atualizar_cadastro_sistema req_version_0 (snd (criar_sistema req_create_tool world0))) =
    Ret (RMessage 200 "Sucesso!") /\
  rows (store (snd (atualizar_cadastro_sistema req_version_0
                      (snd (criar_sistema req_create_tool world0))))) =
    [mkSistemaDB 1 "Tool" 0 None] /\
  ~ version_inv (store (snd (atualizar_cadastro_sistema req_version_0
                               (snd (criar_sistema req_create_tool world0))))).
Proof.
  split; [constructor |].
  split; [vm_compute; reflexivity |].
  assert (Hrows : rows (store (snd (atualizar_cadastro_sistema req_version_0
                                      (snd (criar_sistema req_create_tool world0))))) =
                  [mkSistemaDB 1 "Tool" 0 None]) by (vm_compute; reflexivity).
  split; [exact Hrows |].
  unfold version_inv. rewrite Hrows. intros H. inversion H as [|? ? Hv]. cbn in Hv. lia.
Qed.

Lemma version_inv_app (l1 l2 : list SistemaDB) :
  Forall (fun r => (1 <= version r)%Z) l1 -> Forall (fun r => (1 <= version r)%Z) l2 ->
  Forall (fun r => (1 <= version r)%Z) (l1 ++ l2)%list.
Proof. intros; apply Forall_app; split; assumption. Qed.

(** C7 (as the code does it): [version >= 1] is kept by creation (which
    stores 1), by listing, get-by-id, download and upload (which do not
    write the table), and by an update whose request leaves [version]
    unset or sets it to at least 1; an update copies any other version
    the column accepts. *)
Theorem version_inv_preserved (w : World) :
  version_inv (store w) ->
  (forall req, version_inv (store (snd (criar_sistema req w)))) /\
  (forall n, version_inv (store (snd (listar_sistemas n w)))) /\
  (forall i, version_inv (store (snd (listar_sistema_por_id i w)))) /\
  (forall i, version_inv (store (snd (download_arquivo_sistema i w)))) /\
  (forall i ct f d, version_inv (store (snd (adicionar_arquivo_sistema i ct f d w)))) /\
  (forall info, (forall v, req_version info = SetTo (Some v) -> (1 <= v)%Z) ->
     version_inv (store (snd (atualizar_cadastro_sistema info w)))).
Proof.
  intros Hinv.
  split; [intros req; rewrite criar_sistema_store; unfold version_inv; cbn;
          apply version_inv_app; [exact Hinv | repeat constructor; cbn; lia] |].
  split; [intros n; by rewrite listar_sistemas_store |].
  split; [intros i; by rewrite listar_sistema_por_id_store |].
  split; [intros i; by rewrite download_store |].
  split; [intros i ct f d; by rewrite upload_store |].
  intros info Hv.
  destruct (atualizar_cases info w) as [(_ & Hp & _ & Hst) | (_ & Hst & _)];
    rewrite Hst; [| exact Hinv].
  unfold version_inv, updated_rows in *. cbn.
  apply Forall_map. eapply Forall_impl; [exact Hinv |].
  intros r Hr. cbn beta.
  destruct (id_matches _ r); [| exact Hr].
  unfold apply_patch, model_dump_patch, patch_error in *. cbn in *.
  destruct (req_version info) as [|[v|]] eqn:E; cbn; try exact Hr.
  - apply Hv. reflexivity.
Qed.

Lemma version_inv_preserved_witness :
  version_inv (store (world_tool None)) /\
  version_inv (store (snd (atualizar_cadastro_sistema
                             (mkSistemaCreate (SetTo (Some 1%Z)) "Tool" (SetTo (Some 2%Z)) Unset)
                             (world_tool None)))).
Proof.
  assert (H : version_inv (store (world_tool None))) by (repeat constructor; cbn; lia).
  split; [exact H |].
  apply (version_inv_preserved (world_tool None) H).
  cbn. intros v Hv. injection Hv as <-. lia.
Defined.

(* ------------------------------------------------------------------ *)
(** ** C3: download *)

(** C3 (as the code does it): a missing row, or a row whose [arquivo] is
    unset or the empty string, gives 404; a non-empty [arquivo] naming an
    existing path is served as it is; otherwise the conventional path
    [<module dir>/static/sistemas/<nome>/<version>/<nome>.exe] is served
    without checking it. Files are served as
    [application/x-msdownload] named [<nome>.exe]. *)
Theorem download_cases (i : Z) (w : World) :
  match List.find (id_matches (Some i)) (rows (store w)) with
  | None => exists d, fst (download_arquivo_sistema i w) = Exc (HTTPException 404 d)
  | Some r =>
      match arquivo r with
      | None => exists d, fst (download_arquivo_sistema i w) = Exc (HTTPException 404 d)
      | Some a =>
          if String.eqb a "" then
            exists d, fst (download_arquivo_sistema i w) = Exc (HTTPException 404 d)
          else if os_exists (fs w) (os_segs (cwd w) (parse_path a)) then
            fst (download_arquivo_sistema i w) =
              Ret (RFile (parse_path a) exe_media_type (nome r ++ ".exe"))
          else
            fst (download_arquivo_sistema i w) =
              Ret (RFile (fallback_path (mkPath true (moddir w)) r) exe_media_type
                     (nome r ++ ".exe"))
      end
  end.
Proof.
  unfold download_arquivo_sistema, try_except, with_database, internal_error, reraise,
    path_exists, module_dir, db_query_first_by_id. run_M.
  destruct (List.find _ _) as [r|]; cbn; [| eexists; reflexivity].
  destruct (arquivo r) as [a|]; cbn; [| eexists; reflexivity].
  unfold str_truthy. destruct (String.eqb a ""); cbn; [eexists; reflexivity |].
  destruct (os_exists _ _); reflexivity.
Qed.

(** C3 fails as stated: an [arquivo] set to the empty string names the
    working directory, which exists, yet the handler answers 404. *)
Lemma download_empty_path_counterexample :
  List.find (id_matches (Some 1%Z)) (rows (store (world_tool (Some "")))) =
    Some (mkSistemaDB 1 "Tool" 1 (Some "")) /\
  os_exists (fs (world_tool (Some ""))) (os_segs (cwd (world_tool (Some ""))) (parse_path "")) = true /\
  fst (download_arquivo_sistema 1 (world_tool (Some ""))) =
    Exc (HTTPException 404 "Sistema com ID 1 não encontrado ou sem arquivo").
Proof. split; [| split]; vm_compute; reflexivity. Qed.

(* ------------------------------------------------------------------ *)
(** ** Path components *)

Fixpoint no_slash (s : string) : bool :=
  match s with
  | EmptyString => true
  | String c s' => negb (Ascii.eqb c "/") && no_slash s'
  end.

(** A single ordinary path component: non-empty, no ['/'], neither ["."]
    nor [".."]. *)
Definition plain_seg (s : string) : bool :=
  no_slash s && negb (String.eqb s "") && negb (String.eqb s ".") && negb (String.eqb s "..").

Definition no_dotdot (l : list string) : bool :=
  forallb (fun s => negb (String.eqb s "..")) l.

Definition is_file_entry (e : option entry) : bool :=
  match e with Some (File _) => true | _ => false end.

(** No component on the way from [base] down through [segs] is a regular
    file. *)
Fixpoint no_file_along (fs : fs_t) (base segs : list string) : bool :=
  match segs with
  | [] => true
  | s :: rest => negb (is_file_entry (stat fs (base ++ [s])%list)) &&
                 no_file_along fs (base ++ [s])%list rest
  end.


Lemma split_no_slash (a : string) :
  no_slash a = true -> split_slash a = [a].
Proof.
  induction a as [|c a IH]; cbn; [reflexivity |].
  intros H. apply andb_prop in H as [Hc Ha].
  destruct (Ascii.eqb c "/"); [discriminate |]. by rewrite IH.
Qed.

Lemma string_app_cons (c : ascii) (a b : string) :
  (String c a ++ b)%string = String c (a ++ b)%string.
Proof. reflexivity. Qed.

Lemma split_no_slash_app (a b : string) :
  no_slash a = true -> split_slash (a ++ String "/" b) = a :: split_slash b.
Proof.
  induction a as [|c a IH]; [reflexivity |]. rewrite string_app_cons. cbn.
  intros H. apply andb_prop in H as [Hc Ha].
  destruct (Ascii.eqb c "/"); [discriminate |]. by rewrite IH.
Qed.

Lemma no_slash_app (a b : string) :
  no_slash (a ++ b) = no_slash a && no_slash b.
Proof.
  induction a as [|c a IH]; [reflexivity |]. rewrite string_app_cons. cbn.
  by rewrite IH, andb_assoc.
Qed.

Lemma plain_seg_spec (s : string) :
  plain_seg s = true <->
  no_slash s = true /\ s <> "" /\ s <> "." /\ s <> "..".
Proof.
  unfold plain_seg.
  destruct (no_slash s), (String.eqb_spec s ""), (String.eqb_spec s "."),
    (String.eqb_spec s ".."); cbn; intuition congruence.
Qed.

Lemma parse_plain (s : string) :
  plain_seg s = true -> parse_path s = {| pabs := false; psegs := [s] |}.
Proof.
  intros H. apply plain_seg_spec in H as (Hns & Hne & Hdot & _).
  unfold parse_path. rewrite (split_no_slash _ Hns). cbn.
  destruct (String.eqb_spec s ""); [contradiction |].
  destruct (String.eqb_spec s "."); [contradiction |]. cbn.
  destruct s as [|c s']; [contradiction |]. cbn in Hns.
  apply andb_prop in Hns as [Hc _]. apply negb_true_iff in Hc. by rewrite Hc.
Qed.

Lemma pjoin_plain (p : ppath) (s : string) :
  plain_seg s = true -> pjoin p s = {| pabs := pabs p; psegs := (psegs p ++ [s])%list |}.
Proof. intros H. unfold pjoin. rewrite (parse_plain _ H). reflexivity. Qed.

Lemma walk_no_dotdot (fs : fs_t) (acc segs : list string) :
  no_dotdot segs = true -> walk fs acc segs = Some (acc ++ segs)%list.
Proof.
  revert acc. induction segs as [|s segs IH]; intros acc H; cbn.
  - by rewrite app_nil_r.
  - cbn in H. apply andb_prop in H as [Hs Hr]. apply negb_true_iff in Hs.
    rewrite Hs, IH by exact Hr. by rewrite <- app_assoc.
Qed.

Lemma no_dotdot_app (l1 l2 : list string) :
  no_dotdot (l1 ++ l2)%list = no_dotdot l1 && no_dotdot l2.
Proof. unfold no_dotdot. apply forallb_app. Qed.



Lemma no_file_along_last (fs : fs_t) (base l : list string) :
  no_file_along fs base l = true -> l <> [] -> is_file_entry (stat fs (base ++ l)%list) = false.
Proof.
  revert base. induction l as [|s l IH]; intros base H Hne; [contradiction |].
  cbn in H. apply andb_prop in H as [Hs Hr]. apply negb_true_iff in Hs.
  destruct l as [|s' l'].
  - exact Hs.
  - replace (base ++ s :: s' :: l')%list with ((base ++ [s]) ++ s' :: l')%list
      by (by rewrite <- app_assoc).
    apply IH; [exact Hr | discriminate].
Qed.

(* ------------------------------------------------------------------ *)
(** ** [mkdir(parents=True, exist_ok=True)] and [open(..., "wb")] *)
















Lemma upload_dir_relative (r : SistemaDB) : pabs (upload_dir r) = false.
Proof. reflexivity. Qed.



Definition row_tool : SistemaDB := mkSistemaDB 1 "Tool" 1 None.


(* ------------------------------------------------------------------ *)
(** ** Where upload writes and where the download fallback reads *)

(** No ['/'] and no ['.'] in the string: true of [str(n)]. *)
Fixpoint digit_like (s : string) : bool :=
  match s with
  | EmptyString => true
  | String c s' => negb (Ascii.eqb c "/") && negb (Ascii.eqb c ".") && digit_like s'
  end.

Lemma digit_char_ok (d : N) :
  (d < 10)%N ->
  Ascii.eqb (digit_char d) "/" = false /\ Ascii.eqb (digit_char d) "." = false.
Proof.
  intros Hd. unfold digit_char.
  split; apply Ascii.eqb_neq; intros E; apply (f_equal N_of_ascii) in E;
    rewrite N_ascii_embedding in E by lia; cbn in E; lia.
Qed.

Lemma str_N_fuel_digit_like (f : nat) (n : N) (acc : string) :
  digit_like acc = true -> acc <> "" ->
  digit_like (str_N_fuel f n acc) = true /\ str_N_fuel f n acc <> "".
Proof.
  revert n acc. induction f as [|f IH]; intros n acc Hd Hne; cbn; [done |].
  destruct (digit_char_ok (n mod 10)) as [H1 H2]; [apply N.mod_lt; lia |].
  assert (Hacc : digit_like (String (digit_char (n mod 10)) acc) = true)
    by (cbn; rewrite H1, H2; exact Hd).
  destruct (n / 10 =? 0)%N; [split; [exact Hacc | discriminate] |].
  apply IH; [exact Hacc | discriminate].
Qed.

Lemma digit_like_no_slash (s : string) : digit_like s = true -> no_slash s = true.
Proof.
  induction s as [|c s IH]; cbn; [done |].
  intros H. apply andb_prop in H as [H Hs]. apply andb_prop in H as [Hc _].
  rewrite Hc, IH by exact Hs. reflexivity.
Qed.

Lemma digit_like_plain (s : string) :
  digit_like s = true -> s <> "" -> plain_seg s = true.
Proof.
  intros Hd Hne. apply plain_seg_spec.
  split; [by apply digit_like_no_slash |].
  split; [exact Hne |]. split; intros ->; discriminate.
Qed.

Lemma str_N_fuel_S_digit_like (f : nat) (n : N) (acc : string) :
  digit_like acc = true ->
  digit_like (str_N_fuel (S f) n acc) = true /\ str_N_fuel (S f) n acc <> "".
Proof.
  intros Hd. cbn [str_N_fuel].
  destruct (digit_char_ok (n mod 10)) as [H1 H2]; [apply N.mod_lt; lia |].
  assert (Hacc : digit_like (String (digit_char (n mod 10)) acc) = true)
    by (cbn [digit_like]; rewrite H1, H2; exact Hd).
  destruct (n / 10 =? 0)%N; [split; [exact Hacc | discriminate] |].
  apply str_N_fuel_digit_like; [exact Hacc | discriminate].
Qed.

Lemma str_Z_plain (z : Z) : plain_seg (str_Z z) = true.
Proof.
  destruct z as [|p|p]; cbn [str_Z]; unfold str_N.
  - reflexivity.
  - destruct (str_N_fuel_S_digit_like (Pos.size_nat p) (Z.to_N (Z.pos p)) "") as [Hd Hne];
      [reflexivity |].
    by apply digit_like_plain.
  - destruct (str_N_fuel_S_digit_like (Pos.size_nat p) (N.pos p) "") as [Hd _];
      [reflexivity |].
    apply digit_like_plain; [| discriminate].
    cbn [digit_like]. exact Hd.
Qed.

Lemma plain_seg_exe (s : string) :
  plain_seg s = true -> plain_seg (s ++ ".exe") = true.
Proof.
  intros H. apply plain_seg_spec in H as (Hns & Hne & _).
  apply plain_seg_spec. rewrite no_slash_app, Hns.
  destruct s as [|c s]; [contradiction |]. rewrite string_app_cons.
  split; [reflexivity |].
  split; [discriminate |].
  split; intros E; injection E as _ E; destruct s as [|c' s]; try discriminate.
  rewrite string_app_cons in E. injection E as _ E. destruct s; discriminate.
Qed.

(** With an ordinary [nome], the upload directory is
    [static/sistemas/<nome>/<version>], relative. *)
Lemma upload_dir_plain (r : SistemaDB) :
  plain_seg (nome r) = true ->
  upload_dir r = {| pabs := false;
                    psegs := ["static"; "sistemas"; nome r; str_Z (version r)] |}.
Proof.
  intros H. pose proof (str_Z_plain (version r)) as Hv.
  pose proof H as (Hns & Hne & Hdot & _)%plain_seg_spec.
  pose proof Hv as (Hvns & Hvne & Hvdot & _)%plain_seg_spec.
  unfold upload_dir, parse_path. f_equal.
  change ("static/sistemas/" ++ nome r ++ "/" ++ str_Z (version r))
    with ("static" ++ String "/" ("sistemas" ++ String "/"
            (nome r ++ String "/" (str_Z (version r))))).
  rewrite split_no_slash_app by reflexivity.
  rewrite split_no_slash_app by reflexivity.
  rewrite split_no_slash_app by exact Hns.
  rewrite (split_no_slash _ Hvns). cbn [List.filter].
  destruct (String.eqb_spec (nome r) ""); [contradiction |].
  destruct (String.eqb_spec (nome r) "."); [contradiction |].
  destruct (String.eqb_spec (str_Z (version r)) ""); [contradiction |].
  destruct (String.eqb_spec (str_Z (version r)) "."); [contradiction |].
  reflexivity.
Qed.

(** With an ordinary [nome], the fallback is
    [<module dir>/static/sistemas/<nome>/<version>/<nome>.exe]. *)
Lemma fallback_plain (md : list string) (r : SistemaDB) :
  plain_seg (nome r) = true ->
  fallback_path {| pabs := true; psegs := md |} r =
    {| pabs := true;
       psegs := (md ++ ["static"; "sistemas"; nome r; str_Z (version r); (nome r ++ ".exe")%string])%list |}.
Proof.
  intros H. unfold fallback_path.
  rewrite (pjoin_plain _ "static") by reflexivity.
  rewrite (pjoin_plain _ "sistemas") by reflexivity.
  rewrite (pjoin_plain _ (nome r)) by exact H.
  rewrite (pjoin_plain _ (str_Z (version r))) by apply str_Z_plain.
  rewrite (pjoin_plain _ (nome r ++ ".exe")) by (by apply plain_seg_exe).
  cbn [pabs psegs]. by rewrite <- !app_assoc.
Qed.

(** C9 fails as stated: the client file name [./Tool.exe] differs from
    [Tool.exe], but pathlib drops the ["."] component, so with the working
    directory equal to the module directory the upload writes exactly the
    file the download fallback serves. *)
Lemma upload_dot_slash_reaches_fallback :
  let w0 := world_tool (Some "missing.exe") in
  let w1 := snd (adicionar_arquivo_sistema 1 (Some exe_media_type) "./Tool.exe"
                   [Byte.x4d; Byte.x5a] w0) in
  "./Tool.exe" <> "Tool" ++ ".exe" /\
  fst (adicionar_arquivo_sistema 1 (Some exe_media_type) "./Tool.exe" [Byte.x4d; Byte.x5a] w0) =
    Ret (RMessage 201 "Sucesso!") /\
  fs w1 !! ["app"; "static"; "sistemas"; "Tool"; "1"; "Tool.exe"] =
    Some (File [Byte.x4d; Byte.x5a]) /\
  fst (download_arquivo_sistema 1 w1) =
    Ret (RFile {| pabs := true; psegs := ["app"; "static"; "sistemas"; "Tool"; "1"; "Tool.exe"] |}
           exe_media_type "Tool.exe").
Proof.
  cbv zeta. split; [discriminate |].
  split; [vm_compute; reflexivity |].
  split; vm_compute; reflexivity.
Qed.

(** C9 (as the code does it): for an ordinary system name and an
    ordinary client file name (one path component, not ["."] or [".."]),
    and working and module directories without [..], upload writes to
    [<cwd>/static/sistemas/<nome>/<version>/<file name>] and the download
    fallback reads [<module dir>/static/sistemas/<nome>/<version>/<nome>.exe];
    both resolve to themselves, and they are the same file exactly when the
    two roots coincide and the file name is [<nome>.exe]. *)
Theorem upload_download_paths (w : World) (r : SistemaDB) (filename : string) :
  plain_seg (nome r) = true ->
  plain_seg filename = true ->
  no_dotdot (cwd w) = true ->
  no_dotdot (moddir w) = true ->
  let up := os_segs (cwd w) (pjoin (upload_dir r) filename) in
  let down := os_segs (cwd w) (fallback_path {| pabs := true; psegs := moddir w |} r) in
  up = (cwd w ++ ["static"; "sistemas"; nome r; str_Z (version r); filename])%list /\
  down = (moddir w ++ ["static"; "sistemas"; nome r; str_Z (version r); (nome r ++ ".exe")%string])%list /\
  walk (fs w) [] up = Some up /\
  walk (fs w) [] down = Some down /\
  (up = down <-> cwd w = moddir w /\ filename = nome r ++ ".exe").
Proof.
  intros Hn Hf Hc Hm up down.
  assert (Hup : up = (cwd w ++ ["static"; "sistemas"; nome r; str_Z (version r); filename])%list).
  { unfold up. rewrite (pjoin_plain _ _ Hf), (upload_dir_plain _ Hn). reflexivity. }
  assert (Hdown : down = (moddir w ++ ["static"; "sistemas"; nome r; str_Z (version r);
                                       (nome r ++ ".exe")%string])%list).
  { unfold down. rewrite (fallback_plain _ _ Hn). reflexivity. }
  assert (Hdd : forall s, plain_seg s = true -> negb (String.eqb s "..") = true).
  { intros s Hs. apply plain_seg_spec in Hs as (_ & _ & _ & Hs).
    apply negb_true_iff, String.eqb_neq, Hs. }
  assert (Hsuffix : forall l x, no_dotdot l = true -> plain_seg x = true ->
            no_dotdot (l ++ ["static"; "sistemas"; nome r; str_Z (version r); x])%list = true).
  { intros l x Hl Hx. rewrite no_dotdot_app, Hl. cbn [no_dotdot forallb].
    rewrite (Hdd _ Hn), (Hdd _ (str_Z_plain _)), (Hdd _ Hx). reflexivity. }
  split; [exact Hup |]. split; [exact Hdown |].
  split; [rewrite Hup; exact (walk_no_dotdot _ [] _ (Hsuffix _ _ Hc Hf)) |].
  split; [rewrite Hdown;
          exact (walk_no_dotdot _ [] _ (Hsuffix _ _ Hm (plain_seg_exe _ Hn))) |].
  rewrite Hup, Hdown. split.
  - intros E. apply app_inj_2 in E as [E1 E2]; [| reflexivity].
    split; [exact E1 | congruence].
  - intros [-> ->]. reflexivity.
Qed.

Lemma upload_download_paths_witness :
  plain_seg (nome row_tool) = true /\
  plain_seg "Tool.exe" = true /\
  no_dotdot (cwd (world_tool None)) = true /\
  no_dotdot (moddir (world_tool None)) = true /\
  (os_segs (cwd (world_tool None)) (pjoin (upload_dir row_tool) "Tool.exe") =
   os_segs (cwd (world_tool None))
     (fallback_path {| pabs := true; psegs := moddir (world_tool None) |} row_tool)).
Proof.
  assert (H1 : plain_seg (nome row_tool) = true) by reflexivity.
  assert (H2 : plain_seg "Tool.exe" = true) by reflexivity.
  assert (H3 : no_dotdot (cwd (world_tool None)) = true) by reflexivity.
  assert (H4 : no_dotdot (moddir (world_tool None)) = true) by reflexivity.
  do 4 (split; [assumption |]).
  apply (proj2 (proj2 (proj2 (proj2
           (upload_download_paths (world_tool None) row_tool "Tool.exe" H1 H2 H3 H4))))).
  split; reflexivity.
Defined.

(* ------------------------------------------------------------------ *)
(** * Further properties of the handlers *)

(** ** Outcomes of the handlers, read off their code *)

Lemma por_id_outcome (i : Z) (w : World) :
  store (snd (listar_sistema_por_id i w)) = store w /\
  fs (snd (listar_sistema_por_id i w)) = fs w /\
  fst (listar_sistema_por_id i w) =
    match List.find (id_matches (Some i)) (rows (store w)) with
    | Some r => Ret (RSistema r)
    | None => Exc (HTTPException 500 ("Erro ao listar sistema: 404: Sistema com ID " ++
                                      str_Z i ++ " não encontrado"))
    end.
Proof.
  unfold listar_sistema_por_id, try_except, with_database, db_query_first_by_id,
    internal_error. run_M.
  destruct (List.find _ _); cbn; repeat split.
Qed.

Lemma listar_sistemas_fs (n : option string) (w : World) :
  fs (snd (listar_sistemas n w)) = fs w.
Proof.
  unfold listar_sistemas, try_except, with_database, internal_error. run_M.
  repeat (case_match; simplify_eq/=; run_M); reflexivity.
Qed.

Lemma download_fs (i : Z) (w : World) :
  fs (snd (download_arquivo_sistema i w)) = fs w.
Proof.
  unfold download_arquivo_sistema, try_except, with_database, internal_error, reraise,
    path_exists, module_dir. run_M.
  repeat (case_match; simplify_eq/=; run_M); reflexivity.
Qed.

Lemma download_no_file (i : Z) (w : World) (r : SistemaDB) :
  List.find (id_matches (Some i)) (rows (store w)) = Some r ->
  arquivo r = None ->
  fst (download_arquivo_sistema i w) =
    Exc (HTTPException 404 ("Sistema com ID " ++ str_Z i ++ " não encontrado ou sem arquivo")).
Proof.
  intros Hf Ha.
  unfold download_arquivo_sistema, try_except, with_database, db_query_first_by_id,
    internal_error, reraise. run_M.
  rewrite Hf. cbn. rewrite Ha. reflexivity.
Qed.


(** Whatever the outcome, an update keeps the ids of the rows, in order,
    and the sequence. *)
Lemma updated_rows_ids (i : option Z) (p : patch) (l : list SistemaDB) :
  map id (updated_rows i p l) = map id l.
Proof.
  unfold updated_rows. rewrite map_map. apply map_ext. intros r.
  by destruct (id_matches i r).
Qed.


(** The upload handler, for the executable content type: the row lookup,
    pathlib's [mkdir(parents=True, exist_ok=True)] and the write, with
    every OS error turned into a 500. *)
Lemma upload_exe_outcome (i : Z) (f : string) (d : list Byte.byte) (w : World) :
  store (snd (adicionar_arquivo_sistema i (Some exe_media_type) f d w)) = store w /\
  (fst (adicionar_arquivo_sistema i (Some exe_media_type) f d w),
   fs (snd (adicionar_arquivo_sistema i (Some exe_media_type) f d w))) =
  match List.find (id_matches (Some i)) (rows (store w)) with
  | None => (Exc (HTTPException 404 ("Sistema com ID " ++ str_Z i ++ " não encontrado")), fs w)
  | Some r =>
      match mkdir_parents_rev (cwd w) false (rev (psegs (upload_dir r))) true (fs w) with
      | inl (e, fn) => (Exc (HTTPException 500 ("Erro ao adicionar arquivo ao sistema: " ++
                                                str_exn (OSError e fn))), fs w)
      | inr fs1 =>
          let target := pjoin (upload_dir r) f in
          match os_write_file fs1 (os_start (cwd w) target) (psegs target) d with
          | inl e => (Exc (HTTPException 500 ("Erro ao adicionar arquivo ao sistema: " ++
                                              str_exn (OSError e (str_path target)))), fs1)
          | inr fs2 => (Ret (RMessage 201 "Sucesso!"), fs2)
          end
      end
  end.
Proof.
  unfold adicionar_arquivo_sistema, try_except.
  rewrite bool_decide_eq_true_2 by reflexivity. cbn [negb].
  unfold with_database, db_query_first_by_id, path_mkdir, write_file, internal_error,
    reraise. run_M.
  destruct (List.find _ _) as [r|]; cbn; [| split; reflexivity].
  try rewrite upload_dir_relative.
  destruct (mkdir_parents_rev _ _ _ _ _) as [[e fn]|fs1]; cbn; [split; reflexivity |].
  destruct (os_write_file _ _ _ _); cbn; split; reflexivity.
Qed.

Lemma atualizar_keeps_ids_helper (info : SistemaCreate) (w : World) :
  map id (rows (store (snd (atualizar_cadastro_sistema info w)))) = map id (rows (store w)) /\
  next_id (store (snd (atualizar_cadastro_sistema info w))) = next_id (store w).
Proof.
  destruct (atualizar_cases info w) as [(_ & _ & _ & Hst) | (_ & Hst & _)]; rewrite Hst;
    [| split; reflexivity].
  cbn. split; [apply updated_rows_ids | reflexivity].
Qed.





(** Reading a decimal numeral back, and the characters [str(n)] uses. *)
Fixpoint dec_digits (v : N) (s : string) : N :=
  match s with
  | EmptyString => v
  | String c s' => dec_digits (10 * v + (N_of_ascii c - 48))%N s'
  end.

Fixpoint digits_only (s : string) : bool :=
  match s with
  | EmptyString => true
  | String c s' => (48 <=? N_of_ascii c)%N && (N_of_ascii c <=? 57)%N && digits_only s'
  end.

Lemma string_app_nil_r (a : string) : (a ++ "")%string = a.
Proof. induction a as [|c a IH]; [reflexivity |]. rewrite string_app_cons, IH. reflexivity. Qed.

Lemma string_app_assoc (a b c : string) : (a ++ (b ++ c))%string = ((a ++ b) ++ c)%string.
Proof. induction a as [|x a IH]; [reflexivity |]. rewrite !string_app_cons, IH. reflexivity. Qed.

Lemma dec_digits_app (v : N) (a b : string) :
  dec_digits v (a ++ b) = dec_digits (dec_digits v a) b.
Proof. revert v. induction a as [|c a IH]; intros v; [reflexivity |]. apply IH. Qed.

Lemma digits_only_app (a b : string) :
  digits_only (a ++ b) = digits_only a && digits_only b.
Proof.
  induction a as [|c a IH]; [reflexivity |]. rewrite string_app_cons. cbn [digits_only].
  rewrite IH. by rewrite !andb_assoc.
Qed.

Lemma N_of_digit_char (d : N) : (d < 10)%N -> N_of_ascii (digit_char d) = (48 + d)%N.
Proof. intros H. unfold digit_char. apply N_ascii_embedding. lia. Qed.

Lemma str_N_fuel_shape (f : nat) (n : N) (acc : string) :
  (n < 10 ^ N.of_nat f)%N ->
  exists pre, str_N_fuel f n acc = (pre ++ acc)%string /\
              dec_digits 0 pre = n /\ digits_only pre = true.
Proof.
  revert n acc. induction f as [|f IH]; intros n acc Hn.
  - exists "". cbn in Hn. split; [reflexivity |]. split; [cbn; lia | reflexivity].
  - cbn [str_N_fuel].
    assert (Hlt : (n mod 10 < 10)%N) by (apply N.mod_lt; lia).
    assert (Hd : N_of_ascii (digit_char (n mod 10)) = (48 + n mod 10)%N)
      by (apply N_of_digit_char, Hlt).
    assert (Hdiv : n = (10 * (n / 10) + n mod 10)%N) by (apply N.div_mod; lia).
    assert (Hq : (n / 10 < 10 ^ N.of_nat f)%N).
    { rewrite Nat2N.inj_succ, N.pow_succ_r' in Hn. apply N.Div0.div_lt_upper_bound. lia. }
    assert (Hdig : digits_only (String (digit_char (n mod 10)) "") = true).
    { cbn [digits_only]. rewrite Hd. set (m := (n mod 10)%N) in *.
      apply andb_true_intro; split; [apply andb_true_intro; split |]; try apply N.leb_le;
        [lia | lia | reflexivity]. }
    destruct (N.eqb_spec (n / 10) 0) as [E|E].
    + exists (String (digit_char (n mod 10)) ""). split; [reflexivity |].
      split; [| exact Hdig]. cbn. rewrite Hd.
      set (m := (n mod 10)%N) in *. set (q := (n / 10)%N) in *. lia.
    + destruct (IH (n / 10)%N (String (digit_char (n mod 10)) acc) Hq) as (pre & Hs & Hv & Ho).
      exists (pre ++ String (digit_char (n mod 10)) "")%string.
      split; [rewrite Hs, <- string_app_assoc; reflexivity |].
      split.
      * rewrite dec_digits_app, Hv. cbn. rewrite Hd.
        set (m := (n mod 10)%N) in *. set (q := (n / 10)%N) in *. lia.
      * rewrite digits_only_app, Ho, Hdig. reflexivity.
Qed.

Lemma pos_lt_pow10_size (p : positive) : (N.pos p < 10 ^ N.of_nat (Pos.size_nat p))%N.
Proof.
  induction p as [p IH|p IH|]; cbn [Pos.size_nat]; [| | cbn; lia];
    rewrite Nat2N.inj_succ, N.pow_succ_r'; lia.
Qed.

Lemma str_N_shape (n : N) :
  exists pre, str_N n = pre /\ dec_digits 0 pre = n /\ digits_only pre = true.
Proof.
  unfold str_N.
  destruct (str_N_fuel_shape (S match n with N0 => O | Npos p => Pos.size_nat p end) n "")
    as (pre & Hs & Hv & Ho).
  - destruct n as [|p]; [cbn; lia |].
    pose proof (pos_lt_pow10_size p). rewrite Nat2N.inj_succ, N.pow_succ_r'. lia.
  - exists pre. rewrite Hs, string_app_nil_r. split; [reflexivity | split; assumption].
Qed.

(** [str] on Python [int]s is injective. *)
Lemma str_Z_inj (z1 z2 : Z) : str_Z z1 = str_Z z2 -> z1 = z2.
Proof.
  assert (Hn : forall n1 n2, str_N n1 = str_N n2 -> n1 = n2).
  { intros n1 n2 E.
    destruct (str_N_shape n1) as (p1 & E1 & V1 & _), (str_N_shape n2) as (p2 & E2 & V2 & _).
    rewrite <- V1, <- V2, <- E1, <- E2, E. reflexivity. }
  assert (Hm : forall p n, String "-" (str_N (N.pos p)) <> str_N n).
  { intros p n E. destruct (str_N_shape n) as (pre & E1 & _ & Ho).
    rewrite E1 in E. subst pre. discriminate Ho. }
  destruct z1 as [|p1|p1], z2 as [|p2|p2]; cbn [str_Z]; intros E;
    try (exfalso; eapply Hm; (exact E || (symmetry; exact E))).
  all: try (apply Hn in E; cbn in E; congruence).
  injection E as E. apply Hn in E. congruence.
Qed.

(** The table's key invariant: ids are unique and below the sequence. *)
Definition table_ok (s : Store) : Prop :=
  NoDup (map id (rows s)) /\ ids_below_next s.

(* ------------------------------------------------------------------ *)
(** ** Get by id, listing and download *)

(** Get-by-id answers the first row with that id, unchanged; for an id no
    row has, the 404 it raises reaches the client as a 500 whose detail
    embeds it. It writes neither the table nor the filesystem. *)
Theorem listar_sistema_por_id_outcome (i : Z) (w : World) :
  fst (listar_sistema_por_id i w) =
    match List.find (id_matches (Some i)) (rows (store w)) with
    | Some r => Ret (RSistema r)
    | None => Exc (HTTPException 500 ("Erro ao listar sistema: 404: Sistema com ID " ++
                                      str_Z i ++ " não encontrado"))
    end /\
  store (snd (listar_sistema_por_id i w)) = store w /\
  fs (snd (listar_sistema_por_id i w)) = fs w.
Proof.
  destruct (por_id_outcome i w) as (Hs & Hf & Hr). split; [exact Hr | split; assumption].
Qed.

(** Listing and download are read-only: they leave the committed table and
    the filesystem as they were. *)
Theorem listar_download_read_only (w : World) :
  (forall n, store (snd (listar_sistemas n w)) = store w /\
             fs (snd (listar_sistemas n w)) = fs w) /\
  (forall i, store (snd (download_arquivo_sistema i w)) = store w /\
             fs (snd (download_arquivo_sistema i w)) = fs w).
Proof.
  split; intros; split;
    auto using listar_sistemas_store, listar_sistemas_fs, download_store, download_fs.
Qed.

(* ------------------------------------------------------------------ *)
(** ** Update *)







(** An update, whatever its outcome, neither adds nor removes rows and
    changes no row's id: the ids after it are those before it, counted
    with their multiplicity, in whatever order the table is read; the
    sequence is left alone. *)
Theorem atualizar_keeps_ids (info : SistemaCreate) (w : World) :
  map id (rows (store (snd (atualizar_cadastro_sistema info w)))) ≡ₚ map id (rows (store w)) /\
  next_id (store (snd (atualizar_cadastro_sistema info w))) = next_id (store w).
Proof.
  destruct (atualizar_keeps_ids_helper info w) as [Hids Hnext].
  split; [rewrite Hids; reflexivity | exact Hnext].
Qed.

(* ------------------------------------------------------------------ *)
(** ** The table's ids *)

(** Unique ids below the sequence hold after every handler. *)
Theorem handlers_keep_table_ok (w : World) :
  table_ok (store w) ->
  (forall req, table_ok (store (snd (criar_sistema req w)))) /\
  (forall info, table_ok (store (snd (atualizar_cadastro_sistema info w)))) /\
  (forall n, table_ok (store (snd (listar_sistemas n w)))) /\
  (forall i, table_ok (store (snd (listar_sistema_por_id i w)))) /\
  (forall i, table_ok (store (snd (download_arquivo_sistema i w)))) /\
  (forall i ct f d, table_ok (store (snd (adicionar_arquivo_sistema i ct f d w)))).
Proof.
  intros [Hnd Hlt].
  split.
  { intros req. rewrite criar_sistema_store. unfold table_ok, ids_below_next in *. cbn.
    rewrite map_app. cbn. split.
    - apply NoDup_app. split; [exact Hnd |]. split; [| by constructor; [set_solver | constructor]].
      intros x Hx Hy. apply list_elem_of_In in Hy. destruct Hy as [<- | []].
      apply list_elem_of_In, in_map_iff in Hx as (r & Hr & Hin).
      rewrite List.Forall_forall in Hlt. specialize (Hlt r Hin). lia.
    - apply Forall_app. split; [| constructor; [cbn; lia | constructor]].
      eapply Forall_impl; [exact Hlt |]. cbn. intros r Hr. lia. }
  split.
  { intros info. destruct (atualizar_keeps_ids_helper info w) as [Hids Hn].
    unfold table_ok, ids_below_next in *. rewrite Hids, Hn. split; [exact Hnd |].
    rewrite List.Forall_forall in *. intros r Hin.
    assert (Hr : In (id r) (map id (rows (store (snd (atualizar_cadastro_sistema info w))))))
      by (apply in_map; exact Hin).
    rewrite Hids in Hr. apply in_map_iff in Hr as (r0 & E & Hin0).
    rewrite <- E. by apply Hlt. }
  split; [intros n; by rewrite listar_sistemas_store |].
  split; [intros i; by rewrite listar_sistema_por_id_store |].
  split; [intros i; by rewrite download_store |].
  intros i ct f d; by rewrite upload_store.
Qed.

Lemma handlers_keep_table_ok_witness :
  table_ok (store (world_tool None)) /\
  table_ok (store (snd (criar_sistema req_create_tool (world_tool None)))).
Proof.
  assert (H : table_ok (store (world_tool None))).
  { split; [repeat constructor; set_solver | repeat constructor; cbn; lia]. }
  split; [exact H | exact (proj1 (handlers_keep_table_ok _ H) req_create_tool)].
Defined.

(* ------------------------------------------------------------------ *)
(** ** Round trips *)





(** A system just created has no [arquivo], and upload never sets it, so
    its download answers 404, before and after any upload. *)
Theorem download_after_create_404 (req : SistemaCreate) (w : World) :
  ids_below_next (store w) ->
  let n := next_id (store w) in
  let w1 := snd (criar_sistema req w) in
  fst (download_arquivo_sistema n w1) =
    Exc (HTTPException 404 ("Sistema com ID " ++ str_Z n ++ " não encontrado ou sem arquivo")) /\
  (forall i ct f d,
     fst (download_arquivo_sistema n (snd (adicionar_arquivo_sistema i ct f d w1))) =
       Exc (HTTPException 404 ("Sistema com ID " ++ str_Z n ++ " não encontrado ou sem arquivo"))).
Proof.
  intros H n w1.
  assert (Hf : List.find (id_matches (Some n)) (rows (store w1)) =
               Some (mkSistemaDB n (req_nome req) 1 None)).
  { unfold w1. rewrite criar_sistema_store. cbn [rows]. fold n.
    rewrite (find_past_smaller_ids _ _ _ H). cbn. rewrite Z.eqb_refl. reflexivity. }
  split; [exact (download_no_file _ _ _ Hf eq_refl) |].
  intros i ct f d. apply (download_no_file _ _ (mkSistemaDB n (req_nome req) 1 None));
    [rewrite upload_store; exact Hf | reflexivity].
Qed.

Lemma download_after_create_404_witness :
  ids_below_next (store world0) /\
  fst (download_arquivo_sistema 1
         (snd (adicionar_arquivo_sistema 1 (Some exe_media_type) "Tool.exe" [Byte.x4d]
                 (snd (criar_sistema req_create_tool world0))))) =
    Exc (HTTPException 404 "Sistema com ID 1 não encontrado ou sem arquivo").
Proof.
  assert (H : ids_below_next (store world0)) by constructor.
  split; [exact H |].
  exact (proj2 (download_after_create_404 req_create_tool world0 H) 1%Z
           (Some exe_media_type) "Tool.exe" [Byte.x4d]).
Defined.

(* ------------------------------------------------------------------ *)
(** ** Upload *)

(** An executable upload for an id no row has answers 404 and touches
    neither the table nor the filesystem. *)
Theorem upload_missing_row_404 (i : Z) (f : string) (d : list Byte.byte) (w : World) :
  List.find (id_matches (Some i)) (rows (store w)) = None ->
  fst (adicionar_arquivo_sistema i (Some exe_media_type) f d w) =
    Exc (HTTPException 404 ("Sistema com ID " ++ str_Z i ++ " não encontrado")) /\
  fs (snd (adicionar_arquivo_sistema i (Some exe_media_type) f d w)) = fs w /\
  store (snd (adicionar_arquivo_sistema i (Some exe_media_type) f d w)) = store w.
Proof.
  intros Hf. destruct (upload_exe_outcome i f d w) as [Hs Hp]. rewrite Hf in Hp.
  injection Hp as H1 H2. split; [exact H1 | split; assumption].
Qed.

Lemma upload_missing_row_404_witness :
  List.find (id_matches (Some 7%Z)) (rows (store (world_tool None))) = None /\
  fst (adicionar_arquivo_sistema 7 (Some exe_media_type) "Tool.exe" [Byte.x4d] (world_tool None)) =
    Exc (HTTPException 404 "Sistema com ID 7 não encontrado").
Proof.
  assert (H : List.find (id_matches (Some 7%Z)) (rows (store (world_tool None))) = None)
    by reflexivity.
  split; [exact H | exact (proj1 (upload_missing_row_404 7 "Tool.exe" [Byte.x4d] _ H))].
Defined.







(** With ordinary system names, two rows get the same upload directory
    exactly when they have the same [nome] and the same [version]:
    different versions (1 and 11, -1 and 1, ...) never share a directory,
    while rows that repeat a name and a version, whatever their ids, do. *)
Theorem upload_dir_injective (r1 r2 : SistemaDB) :
  plain_seg (nome r1) = true ->
  plain_seg (nome r2) = true ->
  upload_dir r1 = upload_dir r2 <-> nome r1 = nome r2 /\ version r1 = version r2.
Proof.
  intros H1 H2. rewrite (upload_dir_plain _ H1), (upload_dir_plain _ H2). split.
  - intros E. injection E as En Ev. split; [exact En | exact (str_Z_inj _ _ Ev)].
  - intros [-> ->]. reflexivity.
Qed.

Lemma upload_dir_injective_witness :
  plain_seg (nome (mkSistemaDB 1 "Tool" 1 None)) = true /\
  plain_seg (nome (mkSistemaDB 2 "Tool" 11 None)) = true /\
  upload_dir (mkSistemaDB 1 "Tool" 1 None) <> upload_dir (mkSistemaDB 2 "Tool" 11 None).
Proof.
  assert (H1 : plain_seg (nome (mkSistemaDB 1 "Tool" 1 None)) = true) by reflexivity.
  assert (H2 : plain_seg (nome (mkSistemaDB 2 "Tool" 11 None)) = true) by reflexivity.
  split; [exact H1 | split; [exact H2 |]].
  intros E. apply (upload_dir_injective _ _ H1 H2) in E as [_ Ev]. cbn in Ev. lia.
Defined.
